(** * SPADS Python plugin tutorials and templates: a shallow embedding

    The plugins under [src/plugins] talk to the SPADS host only through the
    [spads] bridge object.  We model every call of that object as an event
    appended to a trace kept in the host state, and the handlers as programs
    of a small state-and-exception monad over that state.  Python values
    used by the handlers are modelled as follows: [str] as [string] (ASCII
    text), [int] as [Z], a raised exception as [Raise]. *)

From Stdlib Require Import String Ascii ZArith List Bool Lia.
Import ListNotations.
Open Scope Z_scope.
Open Scope string_scope.

(* ------------------------------------------------------------------ *)
(** ** Python text helpers *)

Module Py.

Definition code (c : ascii) : nat := nat_of_ascii c.

Definition is_digit (c : ascii) : bool :=
  (48 <=? code c)%nat && (code c <=? 57)%nat.

Definition is_upper (c : ascii) : bool :=
  (65 <=? code c)%nat && (code c <=? 90)%nat.

Definition is_lower (c : ascii) : bool :=
  (97 <=? code c)%nat && (code c <=? 122)%nat.

(** [\w] of Python's [re] restricted to ASCII: letters, digits and [_]. *)
Definition is_word (c : ascii) : bool :=
  is_digit c || is_upper c || is_lower c || Ascii.eqb c "_"%char.

(** [str.isspace] on ASCII: \t \n \v \f \r, the separators 28..31 and space. *)
Definition is_space (c : ascii) : bool :=
  ((9 <=? code c)%nat && (code c <=? 13)%nat)
  || ((28 <=? code c)%nat && (code c <=? 32)%nat).

(** Simple case folding of an ASCII character, as [re.IGNORECASE] does. *)
Definition fold (c : ascii) : ascii :=
  if is_upper c then ascii_of_nat (code c + 32) else c.

Definition digit_val (c : ascii) : Z := Z.of_nat (code c) - 48.

(** Digits after the first one of an [int()] literal; a single [_] may
    separate two digits. *)
Fixpoint parse_digits (acc : Z) (s : list ascii) : option Z :=
  match s with
  | [] => Some acc
  | c :: s' =>
      if is_digit c then parse_digits (acc * 10 + digit_val c) s'
      else if Ascii.eqb c "_"%char then
        match s' with
        | d :: s'' =>
            if is_digit d then parse_digits (acc * 10 + digit_val d) s''
            else None
        | [] => None
        end
      else None
  end.

Fixpoint lstrip (s : list ascii) : list ascii :=
  match s with
  | c :: s' => if is_space c then lstrip s' else s
  | [] => []
  end.

Definition strip (s : list ascii) : list ascii := rev (lstrip (rev (lstrip s))).

Definition unsigned (t : list ascii) : option Z :=
  match t with
  | d :: t' => if is_digit d then parse_digits (digit_val d) t' else None
  | [] => None
  end.

(** [int(s)] for a [str] [s], base 10: surrounding white space, an optional
    sign, then digits. [None] is the [ValueError] case. *)
Definition int_chars (s : list ascii) : option Z :=
  match strip s with
  | c :: t =>
      if Ascii.eqb c "-"%char then option_map Z.opp (unsigned t)
      else if Ascii.eqb c "+"%char then unsigned t
      else unsigned (c :: t)
  | [] => None
  end.

(** [s.split(sep)] for a one-character separator. *)
Fixpoint split_chars (sep : ascii) (s : list ascii) : list (list ascii) :=
  match s with
  | [] => [[]]
  | c :: s' =>
      let r := split_chars sep s' in
      if Ascii.eqb c sep then [] :: r
      else match r with
           | x :: r' => (c :: x) :: r'
           | [] => [[c]]
           end
  end.

Definition split (sep : ascii) (s : string) : list string :=
  map string_of_list_ascii (split_chars sep (list_ascii_of_string s)).

(** [sep.join(l)]. *)
Fixpoint join (sep : string) (l : list string) : string :=
  match l with
  | [] => ""
  | [x] => x
  | x :: l' => x ++ sep ++ join sep l'
  end.

(** The [\b] assertion between the character before the position ([None]
    at the start) and the one after it ([None] at the end). *)
Definition opt_word (c : option ascii) : bool :=
  match c with Some c => is_word c | None => false end.

Definition boundary (prev next : option ascii) : bool :=
  xorb (opt_word prev) (opt_word next).

(** Match the escaped literal [w] case-insensitively at the front of [s];
    on success, the last character consumed (or [prev] when [w] is empty)
    and the rest of [s]. *)
Fixpoint consume_ci (prev : option ascii) (w s : list ascii)
  : option (option ascii * list ascii) :=
  match w, s with
  | [], _ => Some (prev, s)
  | a :: w', c :: s' =>
      if Ascii.eqb (fold a) (fold c) then consume_ci (Some c) w' s' else None
  | _ :: _, [] => None
  end.

(** [re.search(r'\b' + re.escape(w) + r'\b', s, re.IGNORECASE)] is a match
    object (always truthy) or [None]: try every start position in turn. *)
Fixpoint search_from (prev : option ascii) (w s : list ascii) : bool :=
  (boundary prev (hd_error s)
   && match consume_ci prev w s with
      | Some (p', rest) => boundary p' (hd_error rest)
      | None => false
      end)
  || match s with
     | [] => false
     | c :: s' => search_from (Some c) w s'
     end.

Definition search_word_ci (w s : string) : bool :=
  search_from None (list_ascii_of_string w) (list_ascii_of_string s).

End Py.

(* ------------------------------------------------------------------ *)
(** ** The host: SPADS plugin API calls, state and the handler monad *)

Inductive exc := ValueError | IndexError.

Inductive result (A : Type) :=
| Ok (a : A)
| Raise (e : exc).
Arguments Ok {A} a.
Arguments Raise {A} e.

(** One call of the [spads] bridge object. *)
Inductive call :=
| Slog (msg : string) (level : Z)
| GetLobbyState
| AddLobbyCommandHandler (names : list string)
| RemoveLobbyCommandHandler (names : list string)
| AddSpadsCommandHandler (names : list string)
| RemoveSpadsCommandHandler (names : list string)
| FixString (args : list string)
| GetSpadsConf
| GetPluginConf
| GetUserAccessLevel (user : string)
| SayBattle (msg : string)
| SayPrivate (user msg : string)
| QueueLobbyCommand (args : list string)
| Answer (msg : string).

(** The plugin configuration view [spads.getPluginConf()]: the global
    setting [words] and the preset setting [immuneLevel]. *)
Record pluginConf := mkPluginConf { words : string; immuneLevel : string }.

(** The host as seen by a plugin.  [lobbyHandlers] and [spadsHandlers] are
    the names of the lobby command handlers and SPADS command handlers
    currently registered; [params] is the list object a command handler
    receives (handlers may write into it); [trace] lists every bridge call
    made so far. *)
Record host := mkHost {
  lobbyState : Z;
  lobbyLogin : string;
  conf : pluginConf;
  accessLevel : string -> Z;
  clock : string;
  lobbyHandlers : list string;
  spadsHandlers : list string;
  params : list string;
  trace : list call }.

Definition set_trace (h : host) (t : list call) : host :=
  mkHost (lobbyState h) (lobbyLogin h) (conf h) (accessLevel h) (clock h)
    (lobbyHandlers h) (spadsHandlers h) (params h) t.

Definition set_lobbyHandlers (h : host) (l : list string) : host :=
  mkHost (lobbyState h) (lobbyLogin h) (conf h) (accessLevel h) (clock h)
    l (spadsHandlers h) (params h) (trace h).

Definition set_spadsHandlers (h : host) (l : list string) : host :=
  mkHost (lobbyState h) (lobbyLogin h) (conf h) (accessLevel h) (clock h)
    (lobbyHandlers h) l (params h) (trace h).

Definition set_params (h : host) (l : list string) : host :=
  mkHost (lobbyState h) (lobbyLogin h) (conf h) (accessLevel h) (clock h)
    (lobbyHandlers h) (spadsHandlers h) l (trace h).

Definition set_lobbyState (h : host) (z : Z) : host :=
  mkHost z (lobbyLogin h) (conf h) (accessLevel h) (clock h)
    (lobbyHandlers h) (spadsHandlers h) (params h) (trace h).

Definition M (A : Type) : Type := host -> result A * host.

Definition ret {A} (a : A) : M A := fun h => (Ok a, h).

Definition bind {A B} (m : M A) (f : A -> M B) : M B :=
  fun h => match m h with
           | (Ok a, h') => f a h'
           | (Raise e, h') => (Raise e, h')
           end.

Definition raise {A} (e : exc) : M A := fun h => (Raise e, h).

Definition gets {A} (f : host -> A) : M A := fun h => (Ok (f h), h).

Definition modify (f : host -> host) : M unit := fun h => (Ok tt, f h).

Notation "x <- m ;; k" := (bind m (fun x => k))
  (at level 61, m at next level, right associativity).
Notation "' p <- m ;; k" := (bind m (fun x => match x with p => k end))
  (at level 61, p pattern, m at next level, right associativity).
Notation "m ;; k" := (bind m (fun _ => k)) (at level 61, right associativity).

Definition emit (c : call) : M unit :=
  modify (fun h => set_trace h (trace h ++ [c])%list).

(** Handler registries map a name to a callback; a name maps to one
    callback, so adding a present name changes nothing. *)
Definition add_name (l : list string) (n : string) : list string :=
  if existsb (String.eqb n) l then l else (l ++ [n])%list.

Definition remove_name (l : list string) (n : string) : list string :=
  filter (fun m => negb (String.eqb n m)) l.

(** *** The bridge calls *)

Definition slog (msg : string) (level : Z) : M unit := emit (Slog msg level).

Definition getLobbyState : M Z := emit GetLobbyState;; gets lobbyState.

Definition addLobbyCommandHandler (names : list string) : M unit :=
  emit (AddLobbyCommandHandler names);;
  modify (fun h => set_lobbyHandlers h (fold_left add_name names (lobbyHandlers h))).

Definition removeLobbyCommandHandler (names : list string) : M unit :=
  emit (RemoveLobbyCommandHandler names);;
  modify (fun h => set_lobbyHandlers h (fold_left remove_name names (lobbyHandlers h))).

Definition addSpadsCommandHandler (names : list string) : M unit :=
  emit (AddSpadsCommandHandler names);;
  modify (fun h => set_spadsHandlers h (fold_left add_name names (spadsHandlers h))).

Definition removeSpadsCommandHandler (names : list string) : M unit :=
  emit (RemoveSpadsCommandHandler names);;
  modify (fun h => set_spadsHandlers h (fold_left remove_name names (spadsHandlers h))).

(** [spads.fix_string] turns byte strings coming from Perl into [str]; the
    strings of this model are already text, so it returns them unchanged. *)
Definition fix_string1 (s : string) : M string := emit (FixString [s]);; ret s.

Definition fix_string2 (a b : string) : M (string * string) :=
  emit (FixString [a; b]);; ret (a, b).

(** [spads.getSpadsConf()['lobbyLogin']]. *)
Definition getSpadsConf_lobbyLogin : M string := emit GetSpadsConf;; gets lobbyLogin.

Definition getPluginConf : M pluginConf := emit GetPluginConf;; gets conf.

Definition getUserAccessLevel (user : string) : M Z :=
  emit (GetUserAccessLevel user);; gets (fun h => accessLevel h user).

Definition sayBattle (msg : string) : M unit := emit (SayBattle msg).
Definition sayPrivate (user msg : string) : M unit := emit (SayPrivate user msg).
Definition queueLobbyCommand (args : list string) : M unit :=
  emit (QueueLobbyCommand args).
Definition answer (msg : string) : M unit := emit (Answer msg).

(** Python's [int()] applied to a [str]. *)
Definition py_int (s : string) : M Z :=
  match Py.int_chars (list_ascii_of_string s) with
  | Some z => ret z
  | None => raise ValueError
  end.

(** Modelled from the spec: the lobby state constants of the plugin API.
    The host exposes the lobby state and a named constant for the
    synchronized state; only the order of the values matters to the
    plugins, which compare with [>=]. *)
Definition LOBBY_STATE_DISCONNECTED : Z := 0.
Definition LOBBY_STATE_SYNCHRONIZED : Z := 4.

(** The double quote character. *)
Definition dq : string := String "034"%char EmptyString.

(* ------------------------------------------------------------------ *)
(** ** src/plugins/tutorials/forbiddenwords.py *)

Module ForbiddenWords.

Definition pluginVersion : string := "0.1".

(** The SAIDBATTLE handler [hLobbySaidBattle(command,user,message)]. *)
Fixpoint scan (user message : string) (forbiddenWords : list string) : M unit :=
  match forbiddenWords with
  | [] => ret tt
  | forbiddenWord :: rest =>
      if Py.search_word_ci forbiddenWord message then
        sayBattle ("Kicking " ++ user ++ " from battle (watch your language!)");;
        queueLobbyCommand ["KICKFROMBATTLE"; user]
      else scan user message rest
  end.

Definition hLobbySaidBattle (command user message : string) : M unit :=
  '(user, message) <- fix_string2 user message;;
  login <- getSpadsConf_lobbyLogin;;
  if String.eqb user login then ret tt else
  pluginConf <- getPluginConf;;
  level <- getUserAccessLevel user;;
  immune <- py_int (immuneLevel pluginConf);;
  if (level >=? immune)%Z then ret tt else
  let forbiddenWords := Py.split ";"%char (words pluginConf) in
  scan user message forbiddenWords.

Definition __init__ : M unit :=
  slog ("Plugin loaded (version " ++ pluginVersion ++ ")") 3;;
  st <- getLobbyState;;
  if (st >=? LOBBY_STATE_SYNCHRONIZED)%Z
  then addLobbyCommandHandler ["SAIDBATTLE"]
  else ret tt.

Definition onLobbySynchronized : M unit := addLobbyCommandHandler ["SAIDBATTLE"].

Definition onUnload : M unit :=
  st <- getLobbyState;;
  (if (st >=? LOBBY_STATE_SYNCHRONIZED)%Z
   then removeLobbyCommandHandler ["SAIDBATTLE"]
   else ret tt);;
  slog "Plugin unloaded" 3.

(** *** The plugin's life in the host *)

(** Modelled from the spec: the host's connection loop, not part of the
    plugin files.  The host drops every lobby command handler when it is
    disconnected; while not synchronized it moves between lower lobby
    states; when synchronization completes it sets the synchronized state
    and calls [onLobbySynchronized] of a loaded plugin; it loads and
    unloads the plugin at any time. *)
Record sys := mkSys { loaded : bool; hst : host }.

Inductive ev :=
| EvLoad
| EvUnload
| EvDisconnect
| EvProgress (k : Z)
| EvSync.

Definition run_unit (m : M unit) (h : host) : option host :=
  match m h with
  | (Ok _, h') => Some h'
  | (Raise _, _) => None
  end.

Definition step (s : sys) (e : ev) : option sys :=
  match e with
  | EvLoad =>
      if loaded s then None
      else option_map (mkSys true) (run_unit __init__ (hst s))
  | EvUnload =>
      if loaded s then option_map (mkSys false) (run_unit onUnload (hst s))
      else None
  | EvDisconnect =>
      Some (mkSys (loaded s)
              (set_lobbyHandlers (set_lobbyState (hst s) LOBBY_STATE_DISCONNECTED) []))
  | EvProgress k =>
      if ((lobbyState (hst s) <? LOBBY_STATE_SYNCHRONIZED)
          && (LOBBY_STATE_DISCONNECTED <=? k) && (k <? LOBBY_STATE_SYNCHRONIZED))%Z
      then Some (mkSys (loaded s) (set_lobbyState (hst s) k))
      else None
  | EvSync =>
      if (lobbyState (hst s) <? LOBBY_STATE_SYNCHRONIZED)%Z then
        let h := set_lobbyState (hst s) LOBBY_STATE_SYNCHRONIZED in
        if loaded s then option_map (mkSys true) (run_unit onLobbySynchronized h)
        else Some (mkSys false h)
      else None
  end.

Fixpoint run (s : sys) (evs : list ev) : option sys :=
  match evs with
  | [] => Some s
  | e :: evs' => match step s e with Some s' => run s' evs' | None => None end
  end.

(** The start: plugin not loaded, host disconnected, no handler. *)
Definition init (h : host) : Prop :=
  lobbyState h = LOBBY_STATE_DISCONNECTED /\ lobbyHandlers h = [].

Definition reachable (s : sys) : Prop :=
  exists s0 evs, loaded s0 = false /\ init (hst s0) /\ run s0 evs = Some s.

End ForbiddenWords.

(* ------------------------------------------------------------------ *)
(** ** src/plugins/tutorials/timeplugin.py *)

Module TimePlugin.

Definition pluginVersion : string := "0.1".

Definition __init__ : M unit :=
  addSpadsCommandHandler ["time"];;
  slog ("Plugin loaded (version " ++ pluginVersion ++ ")") 3.

Definition onUnload : M unit :=
  removeSpadsCommandHandler ["time"];;
  slog "Plugin unloaded" 3.

(** [hSpadsTime(source,user,params,checkOnly)]; it returns [1] on a vote
    check and [None] otherwise. *)
Definition hSpadsTime (source user : string) (checkOnly : bool) : M (option Z) :=
  if checkOnly then ret (Some 1) else
  current_time_string <- gets clock;;
  answer ("Current local time: " ++ current_time_string);;
  ret None.

End TimePlugin.

(* ------------------------------------------------------------------ *)
(** ** src/plugins/tutorials/helloworld.py *)

Module HelloWorld.

Definition onPrivateMsg (userName message : string) : M Z :=
  '(userName, message) <- fix_string2 userName message;;
  (if String.eqb message "Hello" then sayPrivate userName "Hello World" else ret tt);;
  ret 0.

End HelloWorld.

(* ------------------------------------------------------------------ *)
(** ** src/plugins/templates/{commented,raw}/mynewcommandplugin.py
    (the raw template is the commented one without its comments) *)

Module MyNewCommandPlugin.

Definition pluginVersion : string := "0.1".

Definition __init__ : M unit :=
  addSpadsCommandHandler ["myCommand"];;
  slog ("Plugin loaded (version " ++ pluginVersion ++ ")") 3.

Definition onUnload : M unit :=
  removeSpadsCommandHandler ["myCommand"];;
  slog "Plugin unloaded" 3.

(** [params[i]] and [params[i] = v] on the list object the handler got. *)
Definition get_param (i : nat) : M string :=
  h <- gets (fun h => h);;
  match nth_error (params h) i with
  | Some p => ret p
  | None => raise IndexError
  end.

Fixpoint list_set (l : list string) (i : nat) (v : string) : list string :=
  match l, i with
  | [], _ => []
  | _ :: l', O => v :: l'
  | x :: l', S i' => x :: list_set l' i' v
  end.

Definition set_param (i : nat) (v : string) : M unit :=
  h <- gets (fun h => h);;
  if (i <? length (params h))%nat
  then modify (fun h => set_params h (list_set (params h) i v))
  else raise IndexError.

(** [for i in range(n): params[i]=spads.fix_string(params[i])], from [i]. *)
Fixpoint fix_params (i n : nat) : M unit :=
  match n with
  | O => ret tt
  | S n' =>
      p <- get_param i;;
      p' <- fix_string1 p;;
      set_param i p';;
      fix_params (S i) n'
  end.

Definition hMyCommand (source user : string) (checkOnly : bool) : M (option Z) :=
  if checkOnly then ret (Some 1) else
  user <- fix_string1 user;;
  n <- gets (fun h => length (params h));;
  fix_params 0 n;;
  ps <- gets params;;
  let paramsString := Py.join "," ps in
  slog ("User " ++ user ++ " called command myCommand with parameter(s) "
        ++ dq ++ paramsString ++ dq) 3;;
  ret None.

End MyNewCommandPlugin.

(* ------------------------------------------------------------------ *)
(** ** Validator tags of the configuration schema *)

(** Modelled from the spec: the validator tags "integer" and "integer
    range" of a declared setting, checked by the host's configuration
    loader (not among the plugin files).  An integer is an optional minus
    sign and one or more decimal digits; an integer range is two unsigned
    integers joined by a minus sign. *)
Definition all_digits (l : list ascii) : bool :=
  match l with [] => false | _ => forallb Py.is_digit l end.

Definition valid_integer_chars (l : list ascii) : bool :=
  match l with
  | c :: t => if Ascii.eqb c "-"%char then all_digits t else all_digits l
  | [] => false
  end.

Fixpoint valid_integerRange_chars (l : list ascii) : bool :=
  match l with
  | [] => false
  | c :: t =>
      Py.is_digit c
      && match t with
         | d :: t' => if Ascii.eqb d "-"%char then all_digits t'
                      else valid_integerRange_chars t
         | [] => false
         end
  end.

Definition valid_integer (s : string) : bool :=
  valid_integer_chars (list_ascii_of_string s).

Definition valid_integerRange (s : string) : bool :=
  valid_integerRange_chars (list_ascii_of_string s).

(** [presetPluginParams = { 'immuneLevel': ['integer','integerRange'] }]. *)
Definition allowed_immuneLevel (s : string) : bool :=
  valid_integer s || valid_integerRange s.

(** A reply is a message sent to a user or a channel. *)
Definition is_reply (c : call) : bool :=
  match c with
  | Answer _ | SayBattle _ | SayPrivate _ _ => true
  | _ => false
  end.

(* ------------------------------------------------------------------ *)
(** ** Lemmas on the monad *)

Lemma set_trace_eta (h : host) : set_trace h (trace h) = h.
Proof. destruct h; reflexivity. Qed.

Ltac mrun :=
  cbv [bind ret emit modify gets raise slog getLobbyState sayBattle sayPrivate
       queueLobbyCommand answer fix_string1 fix_string2 getSpadsConf_lobbyLogin
       getPluginConf getUserAccessLevel addLobbyCommandHandler
       removeLobbyCommandHandler addSpadsCommandHandler removeSpadsCommandHandler
       set_trace set_lobbyHandlers set_spadsHandlers set_params set_lobbyState];
  cbn -[String.eqb String.append Z.geb Z.ltb Nat.ltb Py.search_word_ci].

(** Decide the word searches on closed strings. *)
Ltac eval_search :=
  repeat match goal with
  | |- context [Py.search_word_ci ?w ?m] =>
      let b := eval vm_compute in (Py.search_word_ci w m) in
      replace (Py.search_word_ci w m) with b by (vm_compute; reflexivity)
  end.

Ltac app_norm := repeat rewrite <- app_assoc; cbn [app].

(** A host used to evaluate handlers on concrete inputs. *)
Definition demo_host (w il : string) (ps : list string) : host :=
  mkHost LOBBY_STATE_DISCONNECTED "spads" (mkPluginConf w il) (fun _ => 0) "12:00:00"
    [] [] ps [].

(* ------------------------------------------------------------------ *)
(** ** Command handlers on a vote check *)

(** C4: with [checkOnly] set, [hSpadsTime] and [hMyCommand] return 1 for
    every source, user and parameter list, and leave the host untouched:
    no bridge call, no registry or parameter change. *)
Theorem dry_run_check_no_effect :
  forall (h : host) (source user : string),
    TimePlugin.hSpadsTime source user true h = (Ok (Some 1), h)
    /\ MyNewCommandPlugin.hMyCommand source user true h = (Ok (Some 1), h).
Proof. split; reflexivity. Qed.

(* ------------------------------------------------------------------ *)
(** ** HelloWorld *)

(** C10: [onPrivateMsg] always returns 0; its only bridge calls are the
    string fix and, exactly when the message is ["Hello"], one private
    reply ["Hello World"] to the sender. *)
Theorem onPrivateMsg_spec :
  forall (h : host) (userName message : string),
    HelloWorld.onPrivateMsg userName message h =
    (Ok 0, set_trace h (trace h ++ FixString [userName; message]
                         :: (if String.eqb message "Hello"
                             then [SayPrivate userName "Hello World"] else []))%list).
Proof.
  intros h userName message. unfold HelloWorld.onPrivateMsg. mrun.
  destruct (String.eqb message "Hello"); cbn; now app_norm.
Qed.

(* ------------------------------------------------------------------ *)
(** ** ForbiddenWords: the SAIDBATTLE handler *)

Definition kick_calls (user : string) : list call :=
  [SayBattle ("Kicking " ++ user ++ " from battle (watch your language!)");
   QueueLobbyCommand ["KICKFROMBATTLE"; user]].

(** The handler on a message from a user other than the host itself and
    below the immunity level: the reads, then the scan of the words. *)
Lemma hLobbySaidBattle_scan :
  forall h command user message T,
    user <> lobbyLogin h ->
    Py.int_chars (list_ascii_of_string (immuneLevel (conf h))) = Some T ->
    accessLevel h user < T ->
    ForbiddenWords.hLobbySaidBattle command user message h =
    ForbiddenWords.scan user message (Py.split ";"%char (words (conf h)))
      (set_trace h (trace h ++ [FixString [user; message]; GetSpadsConf; GetPluginConf;
                                GetUserAccessLevel user])%list).
Proof.
  intros h command user message T Hself HT Hlt.
  unfold ForbiddenWords.hLobbySaidBattle, py_int. mrun.
  rewrite <- String.eqb_neq in Hself. rewrite Hself.
  destruct h as [st login [w il] lvl clk lh sh ps tr]; cbn in *.
  rewrite HT. cbn.
  replace (lvl user >=? T) with false by (symmetry; rewrite Z.geb_leb; apply Z.leb_gt; lia).
  now app_norm.
Qed.

(** The scan of a word list none of which matches does nothing. *)
Lemma scan_no_match :
  forall user message ws h,
    forallb (fun w => negb (Py.search_word_ci w message)) ws = true ->
    ForbiddenWords.scan user message ws h = (Ok tt, h).
Proof.
  intros user message ws; induction ws as [|w ws IH]; intros h Hall; [reflexivity|].
  cbn in Hall. apply andb_true_iff in Hall as [Hw Hall].
  cbn. destruct (Py.search_word_ci w message); [discriminate|]. now apply IH.
Qed.

(** C9: on a message whose (normalized) sender is the host's own lobby
    login, the handler stops right after reading [lobbyLogin]: no plugin
    configuration read, no access level query, no message, no command,
    whatever the message. *)
Theorem self_message_ignored :
  forall h command user message,
    user = lobbyLogin h ->
    ForbiddenWords.hLobbySaidBattle command user message h =
    (Ok tt, set_trace h (trace h ++ [FixString [user; message]; GetSpadsConf])%list).
Proof.
  intros h command user message ->.
  unfold ForbiddenWords.hLobbySaidBattle. mrun.
  rewrite String.eqb_refl. now app_norm.
Qed.

(** C5: when [immuneLevel] reads as the integer [T] and the sender's
    access level is at least [T], the handler only makes its reads (the
    message appears only in the string fix): no scan, no notice, no
    removal command, for every message. *)
Theorem immune_user_ignored :
  forall h command user message T,
    Py.int_chars (list_ascii_of_string (immuneLevel (conf h))) = Some T ->
    accessLevel h user >= T ->
    ForbiddenWords.hLobbySaidBattle command user message h =
    (Ok tt, set_trace h (trace h ++ FixString [user; message] :: GetSpadsConf
                         :: (if String.eqb user (lobbyLogin h) then []
                             else [GetPluginConf; GetUserAccessLevel user]))%list).
Proof.
  intros h command user message T HT Hge.
  unfold ForbiddenWords.hLobbySaidBattle, py_int. mrun.
  destruct (String.eqb user (lobbyLogin h)); [cbn; now app_norm|].
  destruct h as [st login [w il] lvl clk lh sh ps tr]; cbn in *.
  rewrite HT. cbn.
  replace (lvl user >=? T) with true by (symmetry; rewrite Z.geb_leb; apply Z.leb_le; lia).
  now app_norm.
Qed.

(** C2: with the words setting ["foo;bar"] and a sender neither the host
    nor immune, ["foobar"] triggers nothing (no whole-word match), while
    ["see foo here"], ["see foo bar here"] and ["see FOO here"] each trigger
    exactly one notice and one KICKFROMBATTLE command (case-insensitive
    match; the scan stops at the first matching word). *)
Theorem forbidden_words_whole_word_ci :
  forall h command user T,
    words (conf h) = "foo;bar" ->
    user <> lobbyLogin h ->
    Py.int_chars (list_ascii_of_string (immuneLevel (conf h))) = Some T ->
    accessLevel h user < T ->
    let reads m := [FixString [user; m]; GetSpadsConf; GetPluginConf;
                    GetUserAccessLevel user] in
    ForbiddenWords.hLobbySaidBattle command user "foobar" h
      = (Ok tt, set_trace h (trace h ++ reads "foobar")%list)
    /\ ForbiddenWords.hLobbySaidBattle command user "see foo here" h
      = (Ok tt, set_trace h (trace h ++ reads "see foo here" ++ kick_calls user)%list)
    /\ ForbiddenWords.hLobbySaidBattle command user "see foo bar here" h
      = (Ok tt, set_trace h (trace h ++ reads "see foo bar here" ++ kick_calls user)%list)
    /\ ForbiddenWords.hLobbySaidBattle command user "see FOO here" h
      = (Ok tt, set_trace h (trace h ++ reads "see FOO here" ++ kick_calls user)%list).
Proof.
  intros h command user T Hw Hself HT Hlt reads.
  assert (Hs : forall m, ForbiddenWords.hLobbySaidBattle command user m h =
    ForbiddenWords.scan user m ["foo"; "bar"] (set_trace h (trace h ++ reads m)%list))
    by (intro m; rewrite (hLobbySaidBattle_scan h command user m T Hself HT Hlt), Hw;
        reflexivity).
  repeat split; rewrite Hs; cbn [ForbiddenWords.scan]; eval_search;
    mrun; now app_norm.
Qed.

(** C3, at the failing input: an empty words setting splits into the one
    word [""], whose pattern [\b\b] matches any message holding a word
    character, so the user saying ["hello"] is kicked. *)
Theorem empty_words_setting_kicks :
  ForbiddenWords.hLobbySaidBattle "SAIDBATTLE" "bob" "hello" (demo_host "" "10" [])
  = (Ok tt, set_trace (demo_host "" "10" [])
              ([FixString ["bob"; "hello"]; GetSpadsConf; GetPluginConf;
                GetUserAccessLevel "bob"] ++ kick_calls "bob")%list).
Proof. reflexivity. Qed.

(* ------------------------------------------------------------------ *)
(** ** MyNewCommandPlugin: a real [myCommand] call *)

(** C8, counterexample: a real call with parameters ["a"; "b"] completes
    without sending any reply (no [answer], no [sayBattle], no
    [sayPrivate]). *)
Lemma myCommand_ab_sends_no_reply :
  let r := MyNewCommandPlugin.hMyCommand "pv" "bob" false (demo_host "" "" ["a"; "b"]) in
  fst r = Ok None /\ existsb is_reply (trace (snd r)) = false.
Proof. split; reflexivity. Qed.

(** C8, amended: a real call with parameters ["a"; "b"] makes a notice log
    entry (level 3) whose text holds ["a,b"] and no other call than the
    string fixes; it returns [None]. *)
Theorem myCommand_ab_logs :
  forall h source user,
    MyNewCommandPlugin.hMyCommand source user false (set_params h ["a"; "b"]) =
    (Ok None,
     set_trace (set_params h ["a"; "b"])
       (trace h ++ [FixString [user]; FixString ["a"]; FixString ["b"];
                    Slog ("User " ++ user ++ " called command myCommand with parameter(s) "
                          ++ dq ++ "a,b" ++ dq) 3])%list).
Proof.
  intros h source user. destruct h.
  unfold MyNewCommandPlugin.hMyCommand. do 3 (mrun; cbv [Nat.ltb]). now app_norm.
Qed.

(* ------------------------------------------------------------------ *)
(** ** Completion of the handlers *)

Lemma digit_not_space (c : ascii) : Py.is_digit c = true -> Py.is_space c = false.
Proof.
  destruct c as [[] [] [] [] [] [] [] []]; intro H; vm_compute in H |- *; congruence.
Qed.

Lemma lstrip_nonspace (l : list ascii) :
  forallb (fun c => negb (Py.is_space c)) l = true -> Py.lstrip l = l.
Proof.
  destruct l as [|c t]; cbn; [reflexivity|].
  intro H. apply andb_true_iff in H as [Hc _].
  now destruct (Py.is_space c).
Qed.

Lemma strip_nonspace (l : list ascii) :
  forallb (fun c => negb (Py.is_space c)) l = true -> Py.strip l = l.
Proof.
  intro H. unfold Py.strip. rewrite (lstrip_nonspace l H).
  rewrite lstrip_nonspace; [apply rev_involutive|].
  apply forallb_forall. intros x Hx. apply in_rev in Hx.
  exact (proj1 (forallb_forall _ l) H x Hx).
Qed.

Lemma parse_digits_total (l : list ascii) :
  forallb Py.is_digit l = true -> forall acc, exists z, Py.parse_digits acc l = Some z.
Proof.
  induction l as [|c t IH]; intros H acc; [now exists acc|].
  cbn in H. apply andb_true_iff in H as [Hc Ht].
  cbn. rewrite Hc. now apply IH.
Qed.

Lemma digits_nonspace (l : list ascii) :
  forallb Py.is_digit l = true -> forallb (fun c => negb (Py.is_space c)) l = true.
Proof.
  intro H. apply forallb_forall. intros x Hx.
  rewrite (digit_not_space x (proj1 (forallb_forall _ l) H x Hx)). reflexivity.
Qed.

(** [int()] succeeds on every string the "integer" tag allows. *)
Lemma int_chars_valid_integer (l : list ascii) :
  valid_integer_chars l = true -> exists z, Py.int_chars l = Some z.
Proof.
  destruct l as [|c t]; [discriminate|]. unfold valid_integer_chars, Py.int_chars.
  destruct (Ascii.eqb c "-"%char) eqn:Hm.
  - apply Ascii.eqb_eq in Hm; subst c.
    destruct t as [|d t']; [discriminate|]. intro H.
    rewrite strip_nonspace
      by (change (negb (Py.is_space "-"%char)
                  && forallb (fun c => negb (Py.is_space c)) (d :: t') = true);
          rewrite (digits_nonspace _ H); reflexivity).
    cbn [Ascii.eqb Bool.eqb]. cbn in H. apply andb_true_iff in H as [Hd Ht].
    unfold Py.unsigned. rewrite Hd.
    destruct (parse_digits_total t' Ht (Py.digit_val d)) as [z Hz].
    exists (- z). now rewrite Hz.
  - intro H. cbn [all_digits] in H.
    rewrite strip_nonspace by (now apply digits_nonspace).
    rewrite Hm. cbn in H. apply andb_true_iff in H as [Hc Ht].
    destruct (Ascii.eqb c "+"%char) eqn:Hp.
    + apply Ascii.eqb_eq in Hp; subst c. discriminate.
    + unfold Py.unsigned. rewrite Hc. now apply parse_digits_total.
Qed.

Lemma scan_total :
  forall user message ws h, exists h', ForbiddenWords.scan user message ws h = (Ok tt, h').
Proof.
  intros user message ws. induction ws as [|w ws IH]; intro h.
  - now exists h.
  - cbn [ForbiddenWords.scan]. destruct (Py.search_word_ci w message).
    + mrun. eauto.
    + apply IH.
Qed.

Lemma list_set_length (l : list string) i v : length (MyNewCommandPlugin.list_set l i v) = length l.
Proof.
  revert i; induction l as [|x l IH]; intros [|i]; cbn; auto.
Qed.

(** The loop of [hMyCommand] over [range(len(params))] never leaves the list. *)
Lemma fix_params_total :
  forall n i h, (i + n <= length (params h))%nat ->
    exists h', MyNewCommandPlugin.fix_params i n h = (Ok tt, h')
               /\ length (params h') = length (params h).
Proof.
  induction n as [|n IH]; intros i h Hle; [now exists h|].
  cbn [MyNewCommandPlugin.fix_params].
  unfold MyNewCommandPlugin.get_param, MyNewCommandPlugin.set_param.
  destruct (nth_error (params h) i) as [p|] eqn:Hn;
    [|apply nth_error_None in Hn; lia].
  mrun. rewrite Hn. mrun.
  replace (i <? length (params h))%nat with true by (symmetry; apply Nat.ltb_lt; lia).
  mrun.
  destruct (IH (S i) (mkHost (lobbyState h) (lobbyLogin h) (conf h) (accessLevel h)
                 (clock h) (lobbyHandlers h) (spadsHandlers h)
                 (MyNewCommandPlugin.list_set (params h) i p)
                 (trace h ++ [FixString [p]])%list)) as [h' [E L]];
    cbn [params]; rewrite ?list_set_length; [lia|].
  exists h'. rewrite E. split; [reflexivity|]. rewrite L. apply list_set_length.
Qed.

(** C7, counterexample: ["10-20"] is allowed by the "integerRange" tag of
    [immuneLevel], and [int("10-20")] raises [ValueError] inside the
    SAIDBATTLE handler. *)
Lemma range_immuneLevel_raises :
  allowed_immuneLevel "10-20" = true
  /\ fst (ForbiddenWords.hLobbySaidBattle "SAIDBATTLE" "bob" "hello"
            (demo_host "foo" "10-20" [])) = Raise ValueError.
Proof. split; reflexivity. Qed.

(** C7, amended: the SAIDBATTLE handler completes whenever [immuneLevel]
    is allowed by the "integer" tag; [hSpadsTime], [hMyCommand] and
    [onPrivateMsg] complete on every input. *)
Theorem handlers_complete :
  (forall h command user message,
     valid_integer (immuneLevel (conf h)) = true ->
     exists h', ForbiddenWords.hLobbySaidBattle command user message h = (Ok tt, h'))
  /\ (forall h source user checkOnly,
        exists r h', TimePlugin.hSpadsTime source user checkOnly h = (Ok r, h'))
  /\ (forall h source user checkOnly,
        exists r h', MyNewCommandPlugin.hMyCommand source user checkOnly h = (Ok r, h'))
  /\ (forall h userName message,
        exists h', HelloWorld.onPrivateMsg userName message h = (Ok 0, h')).
Proof.
  split; [|split; [|split]].
  - intros h command user message Hv.
    unfold ForbiddenWords.hLobbySaidBattle, py_int. mrun.
    destruct (String.eqb user (lobbyLogin h)); [eexists; reflexivity|].
    destruct (int_chars_valid_integer _ Hv) as [z Hz].
    destruct h as [st login [w il] lvl clk lh sh ps tr]; cbn in *.
    rewrite Hz. mrun.
    destruct (lvl user >=? z); [eexists; reflexivity|apply scan_total].
  - intros h source user [|]; [do 2 eexists; reflexivity|].
    unfold TimePlugin.hSpadsTime. mrun. do 2 eexists; reflexivity.
  - intros h source user [|]; [do 2 eexists; reflexivity|].
    unfold MyNewCommandPlugin.hMyCommand. mrun.
    match goal with
    | |- context [MyNewCommandPlugin.fix_params 0 ?n ?h1] =>
        destruct (fix_params_total n 0 h1) as [h' [E _]]; [cbn; lia|]
    end.
    rewrite E. mrun. do 2 eexists; reflexivity.
  - intros h userName message. unfold HelloWorld.onPrivateMsg. mrun.
    destruct (String.eqb message "Hello"); mrun; eexists; reflexivity.
Qed.

Lemma handlers_complete_witness :
  valid_integer "10" = true
  /\ exists h', ForbiddenWords.hLobbySaidBattle "SAIDBATTLE" "bob" "hello"
                  (demo_host "foo" "10" []) = (Ok tt, h').
Proof.
  split; [reflexivity|].
  apply (proj1 handlers_complete (demo_host "foo" "10" []) "SAIDBATTLE" "bob" "hello").
  reflexivity.
Defined.

(* ------------------------------------------------------------------ *)
(** ** ForbiddenWords: the handler registry over the plugin's life *)

Module FWLife.
Import ForbiddenWords.

Lemma remove_name_not_in (l : list string) (n : string) : ~ In n (remove_name l n).
Proof.
  unfold remove_name. rewrite filter_In. intros [_ H].
  rewrite String.eqb_refl in H. discriminate.
Qed.

Lemma geb_true (a b : Z) : (a >=? b)%Z = true <-> (a >= b)%Z.
Proof. rewrite Z.geb_leb, Z.leb_le. lia. Qed.

Lemma geb_false (a b : Z) : (a >=? b)%Z = false <-> (a < b)%Z.
Proof. rewrite Z.geb_leb, Z.leb_gt. lia. Qed.

Lemma ltb_true (a b : Z) : (a <? b)%Z = true <-> (a < b)%Z.
Proof. apply Z.ltb_lt. Qed.

Lemma init_effect (h h' : host) :
  run_unit __init__ h = Some h' ->
  lobbyState h' = lobbyState h
  /\ lobbyHandlers h' = (if (lobbyState h >=? LOBBY_STATE_SYNCHRONIZED)%Z
                         then add_name (lobbyHandlers h) "SAIDBATTLE"
                         else lobbyHandlers h).
Proof.
  unfold run_unit, __init__. mrun.
  destruct (lobbyState h >=? LOBBY_STATE_SYNCHRONIZED)%Z; mrun;
    intro E; inversion E; subst; cbn; auto.
Qed.

Lemma unload_effect (h h' : host) :
  run_unit onUnload h = Some h' ->
  lobbyState h' = lobbyState h
  /\ lobbyHandlers h' = (if (lobbyState h >=? LOBBY_STATE_SYNCHRONIZED)%Z
                         then remove_name (lobbyHandlers h) "SAIDBATTLE"
                         else lobbyHandlers h).
Proof.
  unfold run_unit, onUnload. mrun.
  destruct (lobbyState h >=? LOBBY_STATE_SYNCHRONIZED)%Z; mrun;
    intro E; inversion E; subst; cbn; auto.
Qed.

Lemma synchronized_effect (h h' : host) :
  run_unit onLobbySynchronized h = Some h' ->
  lobbyState h' = lobbyState h
  /\ lobbyHandlers h' = add_name (lobbyHandlers h) "SAIDBATTLE".
Proof.
  unfold run_unit, onLobbySynchronized. mrun. intro E; inversion E; subst; cbn; auto.
Qed.

(** The registry invariant: either nothing is registered (and the plugin is
    unloaded or the lobby is not synchronized), or exactly SAIDBATTLE is,
    with the plugin loaded and the lobby synchronized. *)
Definition inv (s : sys) : Prop :=
  (lobbyHandlers (hst s) = []
   /\ ((lobbyState (hst s) < LOBBY_STATE_SYNCHRONIZED)%Z \/ loaded s = false))
  \/ (lobbyHandlers (hst s) = ["SAIDBATTLE"]
      /\ (lobbyState (hst s) >= LOBBY_STATE_SYNCHRONIZED)%Z /\ loaded s = true).

(** Below the synchronized state nothing is registered. *)
Lemma inv_unsync (s : sys) :
  inv s -> (lobbyState (hst s) < LOBBY_STATE_SYNCHRONIZED)%Z -> lobbyHandlers (hst s) = [].
Proof. intros [[H _]|[_ [H _]]] Hlt; [exact H|lia]. Qed.

Lemma inv_step (s s' : sys) (e : ev) : inv s -> step s e = Some s' -> inv s'.
Proof.
  intros I. destruct s as [ld h]. unfold step; cbn [loaded hst] in *.
  destruct e as [| | |k|].
  - destruct ld; [discriminate|].
    destruct (run_unit __init__ h) as [h'|] eqn:E; [|discriminate].
    intro H; inversion H; subst; clear H.
    apply init_effect in E as [Es Eh].
    assert (H0 : lobbyHandlers h = [])
      by (destruct I as [[H _]|[_ [_ H]]]; [exact H|discriminate]).
    unfold inv; cbn [hst loaded]. rewrite Eh, Es, H0.
    destruct (lobbyState h >=? LOBBY_STATE_SYNCHRONIZED)%Z eqn:G.
    + right. apply geb_true in G. auto.
    + left. apply geb_false in G. auto.
  - destruct ld; [|discriminate].
    destruct (run_unit onUnload h) as [h'|] eqn:E; [|discriminate].
    intro H; inversion H; subst; clear H.
    apply unload_effect in E as [Es Eh].
    unfold inv; cbn [hst loaded]. left. split; [|auto].
    rewrite Eh. destruct (lobbyState h >=? LOBBY_STATE_SYNCHRONIZED)%Z eqn:G.
    + apply geb_true in G.
      destruct I as [[H0 _]|[H0 _]]; cbn in H0; rewrite H0; reflexivity.
    + apply geb_false in G. exact (inv_unsync (mkSys true h) I G).
  - intro H; inversion H; subst; clear H.
    left. cbn. split; [reflexivity|left; unfold LOBBY_STATE_DISCONNECTED, LOBBY_STATE_SYNCHRONIZED; lia].
  - destruct ((lobbyState h <? LOBBY_STATE_SYNCHRONIZED)
              && (LOBBY_STATE_DISCONNECTED <=? k) && (k <? LOBBY_STATE_SYNCHRONIZED))%Z
      eqn:G; [|discriminate].
    intro H; inversion H; subst; clear H.
    apply andb_true_iff in G as [G G3]. apply andb_true_iff in G as [G1 _].
    apply ltb_true in G1. apply ltb_true in G3.
    left. cbn. split; [exact (inv_unsync (mkSys ld h) I G1)|left; exact G3].
  - destruct (lobbyState h <? LOBBY_STATE_SYNCHRONIZED)%Z eqn:G; [|discriminate].
    apply ltb_true in G. pose proof (inv_unsync (mkSys ld h) I G) as H0; cbn in H0.
    destruct ld.
    + destruct (run_unit onLobbySynchronized
                  (set_lobbyState h LOBBY_STATE_SYNCHRONIZED)) as [h'|] eqn:E;
        [|discriminate].
      intro H; inversion H; subst; clear H.
      apply synchronized_effect in E as [Es Eh]. cbn in Es, Eh.
      right. cbn. rewrite Eh, H0, Es. unfold LOBBY_STATE_SYNCHRONIZED. auto with zarith.
    + intro H; inversion H; subst; clear H.
      left. cbn. auto.
Qed.

Lemma run_app (s : sys) (l1 l2 : list ev) :
  run s (l1 ++ l2)%list = match run s l1 with Some t => run t l2 | None => None end.
Proof.
  revert s; induction l1 as [|e l1 IH]; intro s; [reflexivity|].
  cbn. destruct (step s e); [apply IH|reflexivity].
Qed.

Lemma inv_run (s s' : sys) (evs : list ev) : inv s -> run s evs = Some s' -> inv s'.
Proof.
  revert s; induction evs as [|e evs IH]; intros s I H.
  - inversion H; subst; exact I.
  - cbn in H. destruct (step s e) as [t|] eqn:E; [|discriminate].
    exact (IH t (inv_step s t e I E) H).
Qed.

Lemma reachable_inv (s : sys) : reachable s -> inv s.
Proof.
  intros (s0 & evs & L & [_ Hh] & R). apply (inv_run s0 s evs); [|exact R].
  left. split; [exact Hh|right; exact L].
Qed.

Lemma reachable_step (s s' : sys) (e : ev) :
  reachable s -> step s e = Some s' -> reachable s'.
Proof.
  intros (s0 & evs & L & I & R) E. exists s0, (evs ++ [e])%list.
  split; [exact L|split; [exact I|]]. rewrite run_app, R. cbn. now rewrite E.
Qed.

Lemma progress_keeps_loaded (ks : list Z) (s t : sys) :
  run s (map EvProgress ks) = Some t -> loaded t = loaded s.
Proof.
  revert s; induction ks as [|k ks IH]; intros s H.
  - now inversion H.
  - cbn in H. unfold step in H.
    destruct ((lobbyState (hst s) <? LOBBY_STATE_SYNCHRONIZED)
              && (LOBBY_STATE_DISCONNECTED <=? k) && (k <? LOBBY_STATE_SYNCHRONIZED))%Z;
      [|discriminate].
    apply IH in H. exact H.
Qed.

End FWLife.

(** A loaded ForbiddenWords plugin in a synchronized lobby: the host
    synchronized first, then loaded the plugin. *)
Definition fw_synced_loaded : ForbiddenWords.sys :=
  ForbiddenWords.mkSys true
    (mkHost LOBBY_STATE_SYNCHRONIZED "spads" (mkPluginConf "" "0") (fun _ => 0)
       "12:00:00" ["SAIDBATTLE"] [] []
       [Slog "Plugin loaded (version 0.1)" 3; GetLobbyState;
        AddLobbyCommandHandler ["SAIDBATTLE"]]).

Lemma fw_synced_loaded_reachable : ForbiddenWords.reachable fw_synced_loaded.
Proof.
  exists (ForbiddenWords.mkSys false (demo_host "" "0" [])),
         [ForbiddenWords.EvSync; ForbiddenWords.EvLoad].
  split; [reflexivity|split; [split; reflexivity|reflexivity]].
Qed.

(** C1, counterexample: ForbiddenWords loaded while the lobby is
    disconnected, then unloaded: [onUnload] reads the lobby state and logs,
    but makes no removal call. *)
Lemma unload_unsynchronized_no_removal :
  match ForbiddenWords.run (ForbiddenWords.mkSys false (demo_host "" "0" []))
          [ForbiddenWords.EvLoad; ForbiddenWords.EvUnload] with
  | Some s => trace (ForbiddenWords.hst s)
              = [Slog "Plugin loaded (version 0.1)" 3; GetLobbyState;
                 GetLobbyState; Slog "Plugin unloaded" 3]
  | None => False
  end.
Proof. reflexivity. Qed.

(** C1, amended: [onUnload] of TimePlugin and of MyNewCommandPlugin removes
    its command handler unconditionally, then logs; [onUnload] of
    ForbiddenWords removes SAIDBATTLE only when the lobby state is at least
    SYNCHRONIZED, then logs; in every reachable state of ForbiddenWords,
    no lobby handler is left after the unload. *)
Theorem unload_removes_handlers :
  (forall h, exists h', TimePlugin.onUnload h = (Ok tt, h')
     /\ trace h' = (trace h ++ [RemoveSpadsCommandHandler ["time"]; Slog "Plugin unloaded" 3])%list
     /\ ~ In "time" (spadsHandlers h'))
  /\ (forall h, exists h', MyNewCommandPlugin.onUnload h = (Ok tt, h')
     /\ trace h' = (trace h ++ [RemoveSpadsCommandHandler ["myCommand"];
                                Slog "Plugin unloaded" 3])%list
     /\ ~ In "myCommand" (spadsHandlers h'))
  /\ (forall h, exists h', ForbiddenWords.onUnload h = (Ok tt, h')
     /\ trace h' = (trace h ++ GetLobbyState
                      :: (if (lobbyState h >=? LOBBY_STATE_SYNCHRONIZED)%Z
                          then [RemoveLobbyCommandHandler ["SAIDBATTLE"]] else [])
                      ++ [Slog "Plugin unloaded" 3])%list
     /\ ((lobbyState h >= LOBBY_STATE_SYNCHRONIZED)%Z -> ~ In "SAIDBATTLE" (lobbyHandlers h')))
  /\ (forall s s', ForbiddenWords.reachable s ->
        ForbiddenWords.step s ForbiddenWords.EvUnload = Some s' ->
        lobbyHandlers (ForbiddenWords.hst s') = []).
Proof.
  split; [|split; [|split]].
  - intro h. unfold TimePlugin.onUnload. mrun. eexists. split; [reflexivity|].
    cbn. split; [now app_norm|apply FWLife.remove_name_not_in].
  - intro h. unfold MyNewCommandPlugin.onUnload. mrun. eexists. split; [reflexivity|].
    cbn. split; [now app_norm|apply FWLife.remove_name_not_in].
  - intro h. unfold ForbiddenWords.onUnload. mrun.
    destruct (lobbyState h >=? LOBBY_STATE_SYNCHRONIZED)%Z eqn:G; mrun;
      eexists; (split; [reflexivity|]); cbn; (split; [now app_norm|]).
    + intros _. apply FWLife.remove_name_not_in.
    + intro H. apply FWLife.geb_false in G. lia.
  - intros s s' R E. pose proof (FWLife.reachable_inv s' (FWLife.reachable_step s s' _ R E)) as I.
    destruct s as [ld h]. unfold ForbiddenWords.step in E. cbn in E.
    destruct ld; [|discriminate].
    destruct (ForbiddenWords.run_unit ForbiddenWords.onUnload h) as [h'|] eqn:U;
      [|discriminate].
    inversion E; subst. destruct I as [[H _]|[_ [_ L]]]; [exact H|discriminate].
Qed.

Lemma unload_removes_handlers_witness :
  ForbiddenWords.reachable fw_synced_loaded
  /\ exists s', ForbiddenWords.step fw_synced_loaded ForbiddenWords.EvUnload = Some s'
                /\ lobbyHandlers (ForbiddenWords.hst s') = [].
Proof.
  split; [exact fw_synced_loaded_reachable|].
  eexists. split; [reflexivity|].
  apply (proj2 (proj2 (proj2 unload_removes_handlers)) fw_synced_loaded);
    [exact fw_synced_loaded_reachable|reflexivity].
Defined.

(** C6, counterexample: ForbiddenWords is loaded while the host is still
    connecting (no handler), the connection drops, then the host
    synchronizes: the callback leaves SAIDBATTLE registered, while nothing
    was registered before the disconnect. *)
Lemma resync_differs_from_before_disconnect :
  match ForbiddenWords.run (ForbiddenWords.mkSys false (demo_host "" "0" []))
          [ForbiddenWords.EvLoad; ForbiddenWords.EvProgress 1] with
  | Some sA =>
      lobbyHandlers (ForbiddenWords.hst sA) = []
      /\ match ForbiddenWords.run sA [ForbiddenWords.EvDisconnect; ForbiddenWords.EvSync] with
         | Some sB => lobbyHandlers (ForbiddenWords.hst sB) = ["SAIDBATTLE"]
         | None => False
         end
  | None => False
  end.
Proof. split; reflexivity. Qed.

(** C6, amended: [onLobbySynchronized] registers SAIDBATTLE without reading
    any state; after it, a loaded plugin in a reachable state has exactly
    SAIDBATTLE registered; so a disconnect taken while the plugin is loaded
    and the lobby synchronized, followed by lower lobby states and the
    re-synchronization, restores the registry held before the disconnect. *)
Theorem resync_restores_handlers :
  (forall h, ForbiddenWords.onLobbySynchronized h =
     (Ok tt, set_trace (set_lobbyHandlers h (add_name (lobbyHandlers h) "SAIDBATTLE"))
               (trace h ++ [AddLobbyCommandHandler ["SAIDBATTLE"]])%list))
  /\ (forall s s', ForbiddenWords.reachable s -> ForbiddenWords.loaded s = true ->
        ForbiddenWords.step s ForbiddenWords.EvSync = Some s' ->
        lobbyHandlers (ForbiddenWords.hst s') = ["SAIDBATTLE"])
  /\ (forall s ks s', ForbiddenWords.reachable s -> ForbiddenWords.loaded s = true ->
        (lobbyState (ForbiddenWords.hst s) >= LOBBY_STATE_SYNCHRONIZED)%Z ->
        ForbiddenWords.run s (ForbiddenWords.EvDisconnect
                              :: map ForbiddenWords.EvProgress ks ++ [ForbiddenWords.EvSync])%list
          = Some s' ->
        lobbyHandlers (ForbiddenWords.hst s') = lobbyHandlers (ForbiddenWords.hst s)).
Proof.
  assert (Hsync : forall s s', ForbiddenWords.reachable s -> ForbiddenWords.loaded s = true ->
            ForbiddenWords.step s ForbiddenWords.EvSync = Some s' ->
            lobbyHandlers (ForbiddenWords.hst s') = ["SAIDBATTLE"]).
  { intros s s' R L E.
    pose proof (FWLife.reachable_inv s' (FWLife.reachable_step s s' _ R E)) as I.
    destruct s as [ld h]; cbn in L; subst ld. unfold ForbiddenWords.step in E. cbn in E.
    destruct (lobbyState h <? LOBBY_STATE_SYNCHRONIZED)%Z; [|discriminate].
    destruct (ForbiddenWords.run_unit ForbiddenWords.onLobbySynchronized
                (set_lobbyState h LOBBY_STATE_SYNCHRONIZED)) as [h'|] eqn:U; [|discriminate].
    inversion E; subst. destruct I as [[_ [G|G]]|[H _]]; [|discriminate|exact H].
    apply FWLife.synchronized_effect in U as [Es _].
    unfold LOBBY_STATE_SYNCHRONIZED in *. cbn in *. lia. }
  split; [|split; [exact Hsync|]].
  - intro h. unfold ForbiddenWords.onLobbySynchronized. mrun. now app_norm.
  - intros s ks s' R L G E.
    assert (Hs : lobbyHandlers (ForbiddenWords.hst s) = ["SAIDBATTLE"]).
    { destruct (FWLife.reachable_inv s R) as [[_ [H|H]]|[H _]]; [lia|congruence|exact H]. }
    rewrite Hs.
    pose (s1 := ForbiddenWords.mkSys (ForbiddenWords.loaded s)
                 (set_lobbyHandlers (set_lobbyState (ForbiddenWords.hst s)
                                       LOBBY_STATE_DISCONNECTED) [])).
    change (ForbiddenWords.run s1 (map ForbiddenWords.EvProgress ks
                                   ++ [ForbiddenWords.EvSync])%list = Some s') in E.
    assert (R1 : ForbiddenWords.reachable s1)
      by (apply (FWLife.reachable_step s s1 ForbiddenWords.EvDisconnect R); reflexivity).
    rewrite FWLife.run_app in E.
    destruct (ForbiddenWords.run s1 (map ForbiddenWords.EvProgress ks)) as [s2|] eqn:E2;
      [|discriminate].
    assert (R2 : ForbiddenWords.reachable s2).
    { destruct R1 as (s0 & evs & L0 & I0 & Q). exists s0, (evs ++ map ForbiddenWords.EvProgress ks)%list.
      split; [exact L0|split; [exact I0|]]. now rewrite FWLife.run_app, Q. }
    assert (L2 : ForbiddenWords.loaded s2 = true)
      by (rewrite (FWLife.progress_keeps_loaded ks s1 s2 E2); exact L).
    cbn [ForbiddenWords.run] in E.
    destruct (ForbiddenWords.step s2 ForbiddenWords.EvSync) as [s3|] eqn:E3;
      [|discriminate].
    inversion E; subst. exact (Hsync s2 s' R2 L2 E3).
Qed.

Lemma resync_restores_handlers_witness :
  ForbiddenWords.reachable fw_synced_loaded
  /\ exists s', ForbiddenWords.run fw_synced_loaded
                  [ForbiddenWords.EvDisconnect; ForbiddenWords.EvProgress 1;
                   ForbiddenWords.EvSync] = Some s'
                /\ lobbyHandlers (ForbiddenWords.hst s') = ["SAIDBATTLE"].
Proof.
  split; [exact fw_synced_loaded_reachable|].
  eexists. split; [reflexivity|].
  apply (proj2 (proj2 resync_restores_handlers) fw_synced_loaded [1]);
    [exact fw_synced_loaded_reachable|reflexivity|vm_compute; discriminate|reflexivity].
Defined.

(* ------------------------------------------------------------------ *)
(** ** Instances of the theorems on concrete hosts *)

Lemma forbidden_words_whole_word_ci_witness :
  words (conf (demo_host "foo;bar" "10" [])) = "foo;bar"
  /\ "bob" <> lobbyLogin (demo_host "foo;bar" "10" [])
  /\ ForbiddenWords.hLobbySaidBattle "SAIDBATTLE" "bob" "see foo here" (demo_host "foo;bar" "10" [])
     = (Ok tt, set_trace (demo_host "foo;bar" "10" [])
                 ([FixString ["bob"; "see foo here"]; GetSpadsConf; GetPluginConf;
                   GetUserAccessLevel "bob"] ++ kick_calls "bob")%list).
Proof.
  split; [reflexivity|split; [discriminate|]].
  apply (forbidden_words_whole_word_ci (demo_host "foo;bar" "10" []) "SAIDBATTLE" "bob" 10);
    [reflexivity|discriminate|reflexivity|cbn; lia].
Defined.

Lemma self_message_ignored_witness :
  ForbiddenWords.hLobbySaidBattle "SAIDBATTLE" "spads" "foo" (demo_host "foo" "10" [])
  = (Ok tt, set_trace (demo_host "foo" "10" [])
              [FixString ["spads"; "foo"]; GetSpadsConf]).
Proof.
  apply (self_message_ignored (demo_host "foo" "10" []) "SAIDBATTLE" "spads" "foo").
  reflexivity.
Defined.

Lemma immune_user_ignored_witness :
  Py.int_chars (list_ascii_of_string "0") = Some 0
  /\ ForbiddenWords.hLobbySaidBattle "SAIDBATTLE" "bob" "foo" (demo_host "foo" "0" [])
     = (Ok tt, set_trace (demo_host "foo" "0" [])
                 [FixString ["bob"; "foo"]; GetSpadsConf; GetPluginConf;
                  GetUserAccessLevel "bob"]).
Proof.
  split; [reflexivity|].
  apply (immune_user_ignored (demo_host "foo" "0" []) "SAIDBATTLE" "bob" "foo" 0);
    [reflexivity|cbn; lia].
Defined.

(* ------------------------------------------------------------------ *)
(** ** The word search of the SAIDBATTLE handler *)

Module SearchFacts.














End SearchFacts.





Lemma scan_trace :
  forall user message ws h,
    ForbiddenWords.scan user message ws h =
    (Ok tt, set_trace h (trace h ++ (if existsb (fun w => Py.search_word_ci w message) ws
                                     then kick_calls user else []))%list).
Proof.
  intros user message ws; induction ws as [|w ws IH]; intro h.
  - cbn. now rewrite app_nil_r, set_trace_eta.
  - cbn [ForbiddenWords.scan existsb].
    destruct (Py.search_word_ci w message); cbn [orb].
    + unfold kick_calls. mrun. now app_norm.
    + apply IH.
Qed.



(** The handler raises only when the sender is not the host and the
    [immuneLevel] setting is not an integer literal, and then raises
    [ValueError]; on every input it changes nothing but the call trace. *)
Theorem hLobbySaidBattle_outcome :
  forall h command user message,
    fst (ForbiddenWords.hLobbySaidBattle command user message h)
    = (if String.eqb user (lobbyLogin h) then Ok tt
       else match Py.int_chars (list_ascii_of_string (immuneLevel (conf h))) with
            | Some _ => Ok tt
            | None => Raise ValueError
            end)
    /\ exists t, snd (ForbiddenWords.hLobbySaidBattle command user message h)
                 = set_trace h (trace h ++ t)%list.
Proof.
  intros h command user message.
  unfold ForbiddenWords.hLobbySaidBattle, py_int. mrun.
  destruct (String.eqb user (lobbyLogin h)).
  - split; [reflexivity|]. eexists. cbn. now app_norm.
  - destruct h as [st login [w il] lvl clk lh sh ps tr]; cbn.
    destruct (Py.int_chars (list_ascii_of_string il)); mrun.
    + destruct (lvl user >=? z).
      * split; [reflexivity|]. eexists. cbn. now app_norm.
      * rewrite scan_trace. split; [reflexivity|]. eexists. cbn. now app_norm.
    + split; [reflexivity|]. eexists. cbn. now app_norm.
Qed.

(* ------------------------------------------------------------------ *)
(** ** The words setting: [;]-joined words split back *)

Lemma list_ascii_of_string_app (a b : string) :
  list_ascii_of_string (a ++ b) = (list_ascii_of_string a ++ list_ascii_of_string b)%list.
Proof. induction a as [|c a IH]; cbn; [reflexivity|now rewrite IH]. Qed.

Lemma split_chars_no_sep (sep : ascii) (l : list ascii) :
  ~ In sep l -> Py.split_chars sep l = [l].
Proof.
  induction l as [|c l IH]; intro H; [reflexivity|].
  cbn. rewrite IH by (intro; apply H; now right).
  destruct (Ascii.eqb_spec c sep) as [E|E]; [subst; exfalso; apply H; now left|reflexivity].
Qed.

Lemma split_chars_sep (sep : ascii) (l1 l2 : list ascii) :
  ~ In sep l1 -> Py.split_chars sep (l1 ++ sep :: l2)%list = l1 :: Py.split_chars sep l2.
Proof.
  induction l1 as [|c l1 IH]; intro H.
  - cbn. now rewrite Ascii.eqb_refl.
  - cbn [app Py.split_chars]. rewrite IH by (intro; apply H; now right).
    destruct (Ascii.eqb_spec c sep) as [E|E]; [subst; exfalso; apply H; now left|reflexivity].
Qed.

(** Splitting on [;] a non-empty list of words without [;], joined with
    [;], gives the words back: the words setting ["w1;...;wn"] is scanned as
    exactly [w1], ..., [wn]. *)
Theorem split_join_words :
  forall ws : list string,
    ws <> [] ->
    Forall (fun w => ~ In ";"%char (list_ascii_of_string w)) ws ->
    Py.split ";"%char (Py.join ";" ws) = ws.
Proof.
  induction ws as [|w ws IH]; intros Hne Hf; [congruence|].
  inversion Hf as [|? ? Hw Hws]; subst.
  destruct ws as [|w2 ws].
  - unfold Py.split. cbn [Py.join]. rewrite split_chars_no_sep by exact Hw.
    cbn. now rewrite string_of_list_ascii_of_string.
  - change (Py.join ";" (w :: w2 :: ws)) with (w ++ ";" ++ Py.join ";" (w2 :: ws)).
    unfold Py.split in *. rewrite !list_ascii_of_string_app. cbn [list_ascii_of_string app].
    rewrite split_chars_sep by exact Hw. cbn [map].
    rewrite string_of_list_ascii_of_string, IH by (congruence || exact Hws). reflexivity.
Qed.

Lemma split_join_words_witness :
  ["foo"; "bar"] <> []
  /\ Forall (fun w => ~ In ";"%char (list_ascii_of_string w)) ["foo"; "bar"]
  /\ Py.split ";"%char (Py.join ";" ["foo"; "bar"]) = ["foo"; "bar"].
Proof.
  assert (F : Forall (fun w => ~ In ";"%char (list_ascii_of_string w)) ["foo"; "bar"])
    by (repeat constructor; cbn; intuition discriminate).
  split; [discriminate|split; [exact F|]].
  apply split_join_words; [discriminate|exact F].
Defined.

(* ------------------------------------------------------------------ *)
(** ** Handler registries over loads and unloads *)

(** In every reachable state, the lobby handler registry holds SAIDBATTLE
    once when ForbiddenWords is loaded and the lobby synchronized, and
    nothing otherwise. *)
Theorem reachable_registry :
  forall s, ForbiddenWords.reachable s ->
    lobbyHandlers (ForbiddenWords.hst s)
    = (if ForbiddenWords.loaded s
          && (lobbyState (ForbiddenWords.hst s) >=? LOBBY_STATE_SYNCHRONIZED)%Z
       then ["SAIDBATTLE"] else []).
Proof.
  intros s R. destruct (FWLife.reachable_inv s R) as [[H [G|G]]|[H [G L]]]; rewrite H.
  - apply FWLife.geb_false in G. rewrite G, andb_false_r. reflexivity.
  - rewrite G. reflexivity.
  - apply FWLife.geb_true in G. rewrite G, L. reflexivity.
Qed.

Lemma reachable_registry_witness :
  ForbiddenWords.reachable fw_synced_loaded
  /\ lobbyHandlers (ForbiddenWords.hst fw_synced_loaded) = ["SAIDBATTLE"].
Proof.
  split; [exact fw_synced_loaded_reachable|].
  exact (reachable_registry fw_synced_loaded fw_synced_loaded_reachable).
Defined.

(** [mrun] that keeps the registry operations folded. *)
Ltac mrun_reg :=
  cbv [bind ret emit modify gets raise slog getLobbyState addLobbyCommandHandler
       removeLobbyCommandHandler addSpadsCommandHandler removeSpadsCommandHandler
       set_trace set_lobbyHandlers set_spadsHandlers];
  cbn -[String.eqb String.append Z.geb add_name remove_name].

Lemma remove_add_name (l : list string) (n : string) :
  ~ In n l -> remove_name (add_name l n) n = l.
Proof.
  intro H. unfold add_name.
  replace (existsb (String.eqb n) l) with false.
  2:{ symmetry. apply Bool.not_true_iff_false. intro E.
      apply existsb_exists in E as [x [Hx Ex]]. apply String.eqb_eq in Ex. subst. tauto. }
  unfold remove_name. rewrite filter_app. cbn. rewrite String.eqb_refl. cbn.
  rewrite app_nil_r. induction l as [|x l IH]; [reflexivity|].
  cbn. destruct (String.eqb_spec n x) as [E|E]; [subst; exfalso; apply H; now left|].
  cbn. rewrite IH; [reflexivity|intro; apply H; now right].
Qed.

(** Loading then unloading a plugin whose handler is not yet registered
    leaves the registries as they were; the calls are the load notice, the
    registration, the removal and the unload notice (ForbiddenWords
    registering and removing only when the lobby is synchronized). *)
Theorem load_unload_restores_registry :
  (forall h, ~ In "time" (spadsHandlers h) ->
     (TimePlugin.__init__;; TimePlugin.onUnload) h
     = (Ok tt, set_trace h (trace h ++ [AddSpadsCommandHandler ["time"];
                                        Slog "Plugin loaded (version 0.1)" 3;
                                        RemoveSpadsCommandHandler ["time"];
                                        Slog "Plugin unloaded" 3])%list))
  /\ (forall h, ~ In "myCommand" (spadsHandlers h) ->
     (MyNewCommandPlugin.__init__;; MyNewCommandPlugin.onUnload) h
     = (Ok tt, set_trace h (trace h ++ [AddSpadsCommandHandler ["myCommand"];
                                        Slog "Plugin loaded (version 0.1)" 3;
                                        RemoveSpadsCommandHandler ["myCommand"];
                                        Slog "Plugin unloaded" 3])%list))
  /\ (forall h, ~ In "SAIDBATTLE" (lobbyHandlers h) ->
     let sync := (lobbyState h >=? LOBBY_STATE_SYNCHRONIZED)%Z in
     (ForbiddenWords.__init__;; ForbiddenWords.onUnload) h
     = (Ok tt, set_trace h (trace h ++ [Slog "Plugin loaded (version 0.1)" 3; GetLobbyState]
                            ++ (if sync then [AddLobbyCommandHandler ["SAIDBATTLE"]] else [])
                            ++ [GetLobbyState]
                            ++ (if sync then [RemoveLobbyCommandHandler ["SAIDBATTLE"]] else [])
                            ++ [Slog "Plugin unloaded" 3])%list)).
Proof.
  split; [|split].
  - intros h H. destruct h; cbn in H.
    unfold TimePlugin.__init__, TimePlugin.onUnload. mrun_reg.
    rewrite remove_add_name by exact H. now app_norm.
  - intros h H. destruct h; cbn in H.
    unfold MyNewCommandPlugin.__init__, MyNewCommandPlugin.onUnload. mrun_reg.
    rewrite remove_add_name by exact H. now app_norm.
  - intros h H sync. destruct h as [st ? ? ? ? lh ? ? ?]; cbn in H, sync.
    unfold ForbiddenWords.__init__, ForbiddenWords.onUnload, sync. mrun_reg.
    cbv [LOBBY_STATE_SYNCHRONIZED] in *. destruct (st >=? 4)%Z eqn:G; mrun_reg; rewrite ?G; mrun_reg.
    + rewrite remove_add_name by exact H. now app_norm.
    + now app_norm.
Qed.

Lemma load_unload_restores_registry_witness :
  ~ In "time" (spadsHandlers (demo_host "" "0" []))
  /\ (TimePlugin.__init__;; TimePlugin.onUnload) (demo_host "" "0" [])
     = (Ok tt, set_trace (demo_host "" "0" [])
                 [AddSpadsCommandHandler ["time"]; Slog "Plugin loaded (version 0.1)" 3;
                  RemoveSpadsCommandHandler ["time"]; Slog "Plugin unloaded" 3]).
Proof.
  split; [cbn; tauto|].
  apply (proj1 load_unload_restores_registry). cbn; tauto.
Defined.



(* ------------------------------------------------------------------ *)
(** ** [hMyCommand] on any parameter list *)

Lemma list_set_nth (l : list string) (i : nat) (v : string) :
  nth_error l i = Some v -> MyNewCommandPlugin.list_set l i v = l.
Proof.
  revert i; induction l as [|x l IH]; intros [|i] H; cbn in *; try discriminate.
  - now inversion H.
  - now rewrite IH.
Qed.

Lemma skipn_nth (l : list string) (i : nat) (p : string) :
  nth_error l i = Some p -> skipn i l = p :: skipn (S i) l.
Proof.
  revert i; induction l as [|x l IH]; intros [|i] H; cbn in *; try discriminate.
  - now inversion H.
  - now apply IH.
Qed.

(** The loop from index [i] to the end fixes the remaining parameters one
    after the other and leaves the list as it was. *)
Lemma fix_params_trace :
  forall n i h, (i + n = length (params h))%nat ->
    MyNewCommandPlugin.fix_params i n h
    = (Ok tt, set_trace h (trace h ++ map (fun p => FixString [p]) (skipn i (params h)))%list).
Proof.
  induction n as [|n IH]; intros i h Hle.
  - cbn. rewrite skipn_all2 by lia. cbn. rewrite app_nil_r. now destruct h.
  - cbn [MyNewCommandPlugin.fix_params].
    unfold MyNewCommandPlugin.get_param, MyNewCommandPlugin.set_param.
    destruct (nth_error (params h) i) as [p|] eqn:Hn;
      [|apply nth_error_None in Hn; lia].
    mrun. rewrite Hn. mrun.
    replace (i <? length (params h))%nat with true by (symmetry; apply Nat.ltb_lt; lia).
    mrun. rewrite (list_set_nth _ _ _ Hn).
    rewrite IH by (cbn; lia). cbn.
    rewrite (skipn_nth _ _ _ Hn). cbn [map]. now app_norm.
Qed.

(** A real call of [myCommand] (not a check) fixes the caller's name and
    every parameter in order, leaves the parameter list unchanged, logs the
    parameters joined by commas at level 3, and answers nothing. *)
Theorem hMyCommand_real_call :
  forall source user h,
    MyNewCommandPlugin.hMyCommand source user false h
    = (Ok None,
       set_trace h (trace h ++ FixString [user] :: map (fun p => FixString [p]) (params h)
                    ++ [Slog ("User " ++ user ++ " called command myCommand with parameter(s) "
                              ++ dq ++ Py.join "," (params h) ++ dq) 3])%list).
Proof.
  intros source user h. unfold MyNewCommandPlugin.hMyCommand. mrun.
  rewrite fix_params_trace by (cbn; lia). mrun. now app_norm.
Qed.
